(** * The report aggregator of review.js

    [generatePolicyReport] of src/review.js takes an array of violation
    records and returns a report: the array itself, a summary (total, one
    count per severity level, a count per category), a pass/fail verdict and
    a list of recommendation strings.  The development embeds the function
    twice: as a function on values ([generatePolicyReport]), and as a program
    over a store of objects ([Store.generatePolicyReport]) in which the array,
    the violation records and the objects the function creates are reached
    through references.  The second embedding is related to the first, and
    carries the statements about what the function leaves untouched. *)

From Stdlib Require Import ZArith Lia.
From stdpp Require Import base option strings list gmap fin_maps.

Local Open Scope string_scope.

(** ** Violation records (review.js, lines 9-70) *)

Module Rule.
Record t := mk {
  id : string;
  name : string;
  severity : string;
  category : string
}.
End Rule.

Module Violation.
Record t := mk {
  rule : Rule.t;
  lineNumber : Z;
  code : string;
  message : string;
  remediation : string
}.
End Violation.

(** ** The fragment of JavaScript values the function computes with

    [summary.byCategory] is an object literal [{}]: its own properties are
    created by the assignments of the [forEach] loop, and every name it does
    not own is looked up in [Object.prototype].  What an assignment stores is
    the result of a [+], which is a number or a string; what a property read
    returns may also be [undefined] or one of the objects found on
    [Object.prototype]. *)

(** Numbers are [NaN] and the counts the function computes; a count is at
    most the length of an array, where the arithmetic of JavaScript numbers
    is exact. *)
Inductive Primitive :=
  | PNaN
  | PNumber (n : nat)
  | PString (s : string).

(** [Builtin src] is an object that the program never created: a native
    function, or [Object.prototype] itself.  The program only ever converts
    it to a primitive, which gives the string [src]. *)
Inductive JSValue :=
  | Undefined
  | Prim (p : Primitive)
  | Builtin (src : string).

(** The own properties of an object made by [{}]. *)
Abbreviation JSObject := (gmap string Primitive).

Definition native (fname : string) : JSValue :=
  Builtin ("function " ++ fname ++ "() { [native code] }").

(** The properties of [Object.prototype] with the values a read of them
    returns; [__proto__] is an accessor, whose getter returns the prototype
    of the receiver, here [Object.prototype]. *)
Definition ObjectPrototype : gmap string JSValue :=
  list_to_map
    [ ("constructor", native "Object");
      ("__defineGetter__", native "__defineGetter__");
      ("__defineSetter__", native "__defineSetter__");
      ("hasOwnProperty", native "hasOwnProperty");
      ("__lookupGetter__", native "__lookupGetter__");
      ("__lookupSetter__", native "__lookupSetter__");
      ("isPrototypeOf", native "isPrototypeOf");
      ("propertyIsEnumerable", native "propertyIsEnumerable");
      ("toString", native "toString");
      ("valueOf", native "valueOf");
      ("__proto__", Builtin "[object Object]");
      ("toLocaleString", native "toLocaleString") ].

(** [o[k]]: an own property, else the inherited one, else [undefined]. *)
Definition Get (o : JSObject) (k : string) : JSValue :=
  match o !! k with
  | Some p => Prim p
  | None => default Undefined (ObjectPrototype !! k)
  end.

(** [o[k] = p] for a primitive [p]: the setter of [__proto__] ignores a
    value that is neither an object nor null; every other name of
    [Object.prototype] is a writable data property, so the assignment
    creates or overwrites an own property of [o]. *)
Definition Put (o : JSObject) (k : string) (p : Primitive) : JSObject :=
  if String.eqb k "__proto__" then o else <[k := p]> o.

(** [v || 0] *)
Definition or_zero (v : JSValue) : JSValue :=
  match v with
  | Undefined => Prim (PNumber 0)
  | Prim PNaN => Prim (PNumber 0)
  | Prim (PNumber 0) => Prim (PNumber 0)
  | Prim (PString "") => Prim (PNumber 0)
  | _ => v
  end.

(** [v + 1]: addition on numbers, concatenation as soon as [v] is a string
    or converts to one. *)
Definition plus_one (v : JSValue) : Primitive :=
  match v with
  | Undefined => PNaN
  | Prim PNaN => PNaN
  | Prim (PNumber n) => PNumber (n + 1)
  | Prim (PString s) => PString (s ++ "1")
  | Builtin src => PString (src ++ "1")
  end.

(** ** Summary and report (review.js, lines 74-81 and 114-119) *)

Module Summary.
Record t := mk {
  total : nat;
  critical : nat;
  high : nat;
  medium : nat;
  low : nat;
  byCategory : JSObject
}.
End Summary.

Module Report.
Record t := mk {
  violations : list Violation.t;
  summary : Summary.t;
  passed : bool;
  recommendations : list string
}.
End Report.

Definition severity_of (v : Violation.t) : string := Rule.severity (Violation.rule v).
Definition category_of (v : Violation.t) : string := Rule.category (Violation.rule v).

(** The six recommendation strings (review.js, lines 94-111). *)
Definition msg_critical : string :=
  "🔴 CRITICAL: Address all critical security violations immediately".
Definition msg_high : string :=
  "🟠 HIGH: Review and fix high-priority security issues".
Definition msg_medium : string :=
  "🟡 MEDIUM: Consider addressing medium-priority issues".
Definition msg_data_protection : string :=
  "📊 Data Protection: Implement proper data handling and encryption".
Definition msg_audit : string :=
  "📋 Audit: Add comprehensive audit logging for financial operations".
Definition msg_security : string :=
  "🔒 Security: Review and fix security vulnerabilities".

(** [violations.filter(v => v.rule.severity === level).length] *)
Definition count_severity (level : string) (violations : list Violation.t) : nat :=
  length (List.filter (fun v => String.eqb (severity_of v) level) violations).

(** The body of the [forEach] callback (line 85), on the [byCategory]
    object. *)
Definition count_category (byCategory : JSObject) (violation : Violation.t) : JSObject :=
  Put byCategory (category_of violation)
      (plus_one (or_zero (Get byCategory (category_of violation)))).

(** [recommendations.push(msg)] under [if (cond)] *)
Definition push_if (cond : bool) (msg : string) (recommendations : list string) : list string :=
  if cond then (recommendations ++ [msg])%list else recommendations.

Section Aggregator.

(** [s > 0] for a string [s] compares the number that [s] converts to;
    the conversion belongs to the JavaScript runtime and is left open. *)
Variable string_gt_zero : string -> bool.

(** [v > 0] *)
Definition gt_zero (v : JSValue) : bool :=
  match v with
  | Undefined => false
  | Prim PNaN => false
  | Prim (PNumber n) => (0 <? n)%nat
  | Prim (PString s) => string_gt_zero s
  | Builtin src => string_gt_zero src
  end.

(** review.js, lines 73-120 *)
Definition generatePolicyReport (violations : list Violation.t) : Report.t :=
  let total := length violations in
  let critical := count_severity "critical" violations in
  let high := count_severity "high" violations in
  let medium := count_severity "medium" violations in
  let low := count_severity "low" violations in
  let byCategory := fold_left count_category violations ∅ in
  let summary := Summary.mk total critical high medium low byCategory in
  let passed := (Summary.critical summary =? 0)%nat && (Summary.high summary =? 0)%nat in
  let recommendations := [] in
  let recommendations := push_if (0 <? Summary.critical summary)%nat msg_critical recommendations in
  let recommendations := push_if (0 <? Summary.high summary)%nat msg_high recommendations in
  let recommendations := push_if (0 <? Summary.medium summary)%nat msg_medium recommendations in
  let recommendations :=
    push_if (gt_zero (Get (Summary.byCategory summary) "data-protection"))
            msg_data_protection recommendations in
  let recommendations :=
    push_if (gt_zero (Get (Summary.byCategory summary) "audit"))
            msg_audit recommendations in
  let recommendations :=
    push_if (gt_zero (Get (Summary.byCategory summary) "security"))
            msg_security recommendations in
  Report.mk violations summary passed recommendations.

End Aggregator.

(** The literal of review.js, lines 9-70. *)
Definition policyViolations : list Violation.t :=
  [ Violation.mk
      (Rule.mk "BANK_002" "Hardcoded Credentials" "critical" "security")
      7
      "  password: 'admin123', // BANK_002: Hardcoded credentials detected"
      "Hardcoded credentials detected - security risk"
      "Use environment variables, secure vaults, or configuration management";
    Violation.mk
      (Rule.mk "BANK_001" "Personal Data Exposure" "critical" "data-protection")
      16
      "  console.log(`Processing customer: ${customer.ssn}`) // BANK_001: Personal data exposure"
      "Potential exposure of sensitive financial data detected"
      "Use encryption, masking, or secure data handling practices";
    Violation.mk
      (Rule.mk "BANK_003" "SQL Injection Risk" "high" "security")
      29
      "  const query = `SELECT * FROM users WHERE id = ${userId}` // BANK_003: SQL injection risk"
      "Potential SQL injection vulnerability detected"
      "Use parameterized queries or ORM libraries";
    Violation.mk
      (Rule.mk "BANK_006" "Audit Trail Missing" "high" "audit")
      48
      "function transferMoney(fromAccount: string, toAccount: string, amount: number) {"
      "Financial operation detected without audit logging"
      "Implement comprehensive audit logging for all financial operations";
    Violation.mk
      (Rule.mk "BANK_005" "Missing Input Validation" "medium" "security")
      40
      "  const amount = req.body.amount // BANK_005: Missing input validation"
      "User input used without validation"
      "Implement proper input validation and sanitization" ].

(** ** The display helpers (review.js, lines 170-190) *)

(** Whether a value counts as true where a condition is expected. *)
Definition truthy (v : JSValue) : bool :=
  match v with
  | Undefined => false
  | Prim PNaN => false
  | Prim (PNumber 0) => false
  | Prim (PNumber (S _)) => true
  | Prim (PString "") => false
  | Prim (PString (String _ _)) => true
  | Builtin _ => true
  end.

(** [v || d] for a string literal [d] *)
Definition or_string (v : JSValue) (d : string) : JSValue :=
  if truthy v then v else Prim (PString d).

(** The object literal of [getCategoryEmoji] (lines 172-178). *)
Definition emojiMap_category : JSObject :=
  list_to_map
    [ ("security", PString "🔒");
      ("compliance", PString "⚖️");
      ("data-protection", PString "📊");
      ("audit", PString "📋");
      ("regulatory", PString "🏛️") ].

(** review.js, lines 171-180 *)
Definition getCategoryEmoji (category : string) : JSValue :=
  or_string (Get emojiMap_category category) "📝".

(** The object literal of [getSeverityEmoji] (lines 183-188). *)
Definition emojiMap_severity : JSObject :=
  list_to_map
    [ ("critical", PString "🔴");
      ("high", PString "🟠");
      ("medium", PString "🟡");
      ("low", PString "🟢") ].

(** review.js, lines 182-190 *)
Definition getSeverityEmoji (severity : string) : JSValue :=
  or_string (Get emojiMap_severity severity) "⚪".

(** ** Notions the statements are phrased with *)

(** The four severity levels the summary has a bucket for. *)
Definition known_severities : list string := ["critical"; "high"; "medium"; "low"].

(** [critical + high + medium + low] of a summary. *)
Definition severity_sum (s : Summary.t) : nat :=
  Summary.critical s + Summary.high s + Summary.medium s + Summary.low s.

(** The violations whose severity is none of the four levels. *)
Definition unrecognized (violations : list Violation.t) : list Violation.t :=
  filter (fun v => severity_of v ∉ known_severities) violations.

(** The number of violations whose category is [k]. *)
Definition occurrences (k : string) (violations : list Violation.t) : nat :=
  length (List.filter (fun v => String.eqb (category_of v) k) violations).

(** The count a category-to-count mapping holds for [k]: the number stored
    under [k], and 0 where [k] has no entry. *)
Definition count_of (p : Primitive) : nat :=
  match p with
  | PNumber n => n
  | _ => 0
  end.

Definition category_count (o : JSObject) (k : string) : nat :=
  from_option count_of 0 (o !! k).

(** The sum of all the counts of a mapping. *)
Definition sum_counts (o : JSObject) : nat :=
  map_fold (fun _ p acc => count_of p + acc) 0 o.

(** The recommendation strings in the order of the six [if] statements. *)
Definition all_messages : list string :=
  [msg_critical; msg_high; msg_medium; msg_data_protection; msg_audit; msg_security].

(** The categories of the five entries of [getCategoryEmoji]. *)
Definition known_categories : list string :=
  ["security"; "compliance"; "data-protection"; "audit"; "regulatory"].

(** The marks [getSeverityEmoji] has for the four severity levels. *)
Definition level_marks : list JSValue :=
  [ Prim (PString "🔴"); Prim (PString "🟠"); Prim (PString "🟡"); Prim (PString "🟢") ].

(** The string of [n] characters 1. *)
Fixpoint ones (n : nat) : string :=
  match n with
  | 0 => ""
  | S n => ones n ++ "1"
  end.

#[global] Instance Primitive_eq_dec : EqDecision Primitive.
Proof. solve_decision. Defined.

#[global] Instance JSValue_eq_dec : EqDecision JSValue.
Proof. solve_decision. Defined.

(** The violation [v] triggers the recommendation [msg]: [v] has the
    severity or the category that the [if] statement of [msg] tests for. *)
Definition triggers (msg : string) (v : Violation.t) : Prop :=
  (msg = msg_critical /\ severity_of v = "critical") \/
  (msg = msg_high /\ severity_of v = "high") \/
  (msg = msg_medium /\ severity_of v = "medium") \/
  (msg = msg_data_protection /\ category_of v = "data-protection") \/
  (msg = msg_audit /\ category_of v = "audit") \/
  (msg = msg_security /\ category_of v = "security").

(** The entry of a mapping for [k] is that of a plain counter: absent until
    the first violation of category [k], and a positive number from then
    on. *)
Definition counter_at (o : JSObject) (k : string) : Prop :=
  o !! k = None \/ exists n, o !! k = Some (PNumber (S n)).

(** The entry of a mapping for a name [k] of [Object.prototype] whose
    inherited value converts to the string [src], after [n] violations of
    category [k]: absent at first, then [src] followed by [n] characters 1. *)
Definition inherited_at (o : JSObject) (k src : string) (n : nat) : Prop :=
  o !! k = match n with
           | 0 => None
           | S _ => Some (PString (src ++ ones n))
           end.

(** The examples below evaluate the function with a runtime in which no
    string compares greater than 0; by [report_runtime_independent] any
    other choice gives the same report. *)
Definition never_positive : string -> bool := fun _ => false.

(** Violations the statements are evaluated at. *)

Definition info_violation : Violation.t :=
  Violation.mk (Rule.mk "BANK_010" "Verbose Logging" "info" "audit") 3
    "  logger.debug(payload)" "Debug logging left enabled" "Lower the log level".

Definition low_violation : Violation.t :=
  Violation.mk (Rule.mk "BANK_011" "Deprecated Call" "low" "compliance") 12
    "  legacyTransfer(a, b)" "Deprecated API used" "Use the current API".

Definition proto_violation : Violation.t :=
  Violation.mk (Rule.mk "BANK_012" "Prototype Access" "low" "__proto__") 21
    "  target.__proto__ = source" "Prototype of an object reassigned"
    "Use Object.create or a class".

Definition constructor_violation : Violation.t :=
  Violation.mk (Rule.mk "BANK_013" "Unsafe Constructor" "low" "constructor") 30
    "  new Function(body)" "Code built from a string" "Avoid dynamic code".

(** ** The function as a program over a store

    In the script the array, the violation records and their rules are
    objects reached through references, and the function creates further
    objects: the four arrays that [filter] returns, the [byCategory] object,
    the summary, the recommendation array and the report.  The store holds
    one object per location; a location is the index of its object.  Objects
    are typed by shape, and a read that does not find the shape the source
    expects fails. *)

Module Store.

Abbreviation loc := nat.

Inductive object :=
  | ORule (r : Rule.t)
  | OViolation (rule : loc) (lineNumber : Z) (code message remediation : string)
  | OArray (elems : list loc)
  | OCounts (own : JSObject)
  | OSummary (total critical high medium low : nat) (byCategory : loc)
  | OStrings (elems : list string)
  | OReport (violations summary : loc) (passed : bool) (recommendations : loc).

Abbreviation store := (list object).

(** Computations that read and write the store and may fail. *)
Definition M (A : Type) : Type := store -> option (A * store).

Definition ret {A} (a : A) : M A := fun h => Some (a, h).

Definition bind {A B} (f : A -> M B) (m : M A) : M B :=
  fun h => match m h with
           | Some (a, h') => f a h'
           | None => None
           end.

Definition fail {A} : M A := fun _ => None.

#[global] Instance M_ret : MRet M := @ret.
#[global] Instance M_bind : MBind M := @bind.

(** A new object gets the next free location. *)
Definition alloc (o : object) : M loc :=
  fun h => Some (length h, (h ++ [o])%list).

Definition read (l : loc) : M object :=
  fun h => match h !! l with
           | Some o => Some (o, h)
           | None => None
           end.

Definition write (l : loc) (o : object) : M unit :=
  fun h => if decide (l < length h) then Some (tt, <[l := o]> h) else None.

Definition read_array (l : loc) : M (list loc) :=
  o ← read l;
  match o with OArray elems => ret elems | _ => fail end.

(** [violation.rule] with the fields of the rule *)
Definition rule_of (violation : loc) : M Rule.t :=
  o ← read violation;
  match o with
  | OViolation rule _ _ _ _ =>
      o' ← read rule;
      match o' with ORule r => ret r | _ => fail end
  | _ => fail
  end.

(** The elements that [filter(v => v.rule.severity === level)] keeps. *)
Fixpoint filter_severity (level : string) (elems : list loc) : M (list loc) :=
  match elems with
  | [] => ret []
  | v :: rest =>
      r ← rule_of v;
      kept ← filter_severity level rest;
      ret (if String.eqb (Rule.severity r) level then v :: kept else kept)
  end.

(** [violations.filter(v => v.rule.severity === level).length]: [filter]
    returns a new array. *)
Definition count_severity (level : string) (violations : loc) : M nat :=
  elems ← read_array violations;
  kept ← filter_severity level elems;
  filtered ← alloc (OArray kept);
  result ← read_array filtered;
  ret (length result).

Definition read_summary (summary : loc) : M Summary.t :=
  o ← read summary;
  match o with
  | OSummary total critical high medium low byCategory =>
      o' ← read byCategory;
      match o' with
      | OCounts own => ret (Summary.mk total critical high medium low own)
      | _ => fail
      end
  | _ => fail
  end.

(** The callback of [forEach] (line 85): an assignment to a property of
    the object that [summary.byCategory] refers to. *)
Definition count_category (summary : loc) (violation : loc) : M unit :=
  o ← read summary;
  match o with
  | OSummary _ _ _ _ _ byCategory =>
      r ← rule_of violation;
      o' ← read byCategory;
      match o' with
      | OCounts own =>
          write byCategory
            (OCounts (Put own (Rule.category r)
                        (plus_one (or_zero (Get own (Rule.category r))))))
      | _ => fail
      end
  | _ => fail
  end.

Fixpoint forEach (elems : list loc) (callback : loc -> M unit) : M unit :=
  match elems with
  | [] => ret tt
  | v :: rest => callback v;; forEach rest callback
  end.

(** [recommendations.push(msg)] *)
Definition push (recommendations : loc) (msg : string) : M unit :=
  o ← read recommendations;
  match o with
  | OStrings elems => write recommendations (OStrings (elems ++ [msg])%list)
  | _ => fail
  end.

(** [if (cond) { body }] *)
Definition when (cond : bool) (body : M unit) : M unit :=
  if cond then body else ret tt.

Section Aggregator.

Variable string_gt_zero : string -> bool.

(** review.js, lines 73-120 *)
Definition generatePolicyReport (violations : loc) : M loc :=
  elems ← read_array violations;
  critical ← count_severity "critical" violations;
  high ← count_severity "high" violations;
  medium ← count_severity "medium" violations;
  low ← count_severity "low" violations;
  byCategory ← alloc (OCounts ∅);
  summary ← alloc (OSummary (length elems) critical high medium low byCategory);
  elems ← read_array violations;
  forEach elems (count_category summary);;
  s ← read_summary summary;
  let passed := (Summary.critical s =? 0)%nat && (Summary.high s =? 0)%nat in
  recommendations ← alloc (OStrings []);
  s ← read_summary summary;
  when (0 <? Summary.critical s)%nat (push recommendations msg_critical);;
  s ← read_summary summary;
  when (0 <? Summary.high s)%nat (push recommendations msg_high);;
  s ← read_summary summary;
  when (0 <? Summary.medium s)%nat (push recommendations msg_medium);;
  s ← read_summary summary;
  when (gt_zero string_gt_zero (Get (Summary.byCategory s) "data-protection"))
       (push recommendations msg_data_protection);;
  s ← read_summary summary;
  when (gt_zero string_gt_zero (Get (Summary.byCategory s) "audit"))
       (push recommendations msg_audit);;
  s ← read_summary summary;
  when (gt_zero string_gt_zero (Get (Summary.byCategory s) "security"))
       (push recommendations msg_security);;
  alloc (OReport violations summary passed recommendations).

End Aggregator.

(** *** Reading values back from a store *)

Definition load_violation (h : store) (l : loc) : option Violation.t :=
  match h !! l with
  | Some (OViolation rule lineNumber code message remediation) =>
      match h !! rule with
      | Some (ORule r) => Some (Violation.mk r lineNumber code message remediation)
      | _ => None
      end
  | _ => None
  end.

Fixpoint load_all (h : store) (elems : list loc) : option (list Violation.t) :=
  match elems with
  | [] => Some []
  | l :: rest =>
      match load_violation h l, load_all h rest with
      | Some v, Some vs => Some (v :: vs)
      | _, _ => None
      end
  end.

Definition load_violations (h : store) (violations : loc) : option (list Violation.t) :=
  match h !! violations with
  | Some (OArray elems) => load_all h elems
  | _ => None
  end.

Definition load_summary (h : store) (summary : loc) : option Summary.t :=
  match h !! summary with
  | Some (OSummary total critical high medium low byCategory) =>
      match h !! byCategory with
      | Some (OCounts own) => Some (Summary.mk total critical high medium low own)
      | _ => None
      end
  | _ => None
  end.

Definition load_strings (h : store) (l : loc) : option (list string) :=
  match h !! l with
  | Some (OStrings elems) => Some elems
  | _ => None
  end.

Definition load_report (h : store) (report : loc) : option Report.t :=
  match h !! report with
  | Some (OReport violations summary passed recommendations) =>
      match load_violations h violations, load_summary h summary,
            load_strings h recommendations with
      | Some vs, Some s, Some recs => Some (Report.mk vs s passed recs)
      | _, _, _ => None
      end
  | _ => None
  end.

(** The [violations] field of a report object. *)
Definition violations_field (h : store) (report : loc) : option loc :=
  match h !! report with
  | Some (OReport violations _ _ _) => Some violations
  | _ => None
  end.

End Store.

(** The array of the script laid out in a store: rules at 0-4, violation
    records at 5-9, the array at 10. *)
Definition policyViolations_store : list Store.object :=
  ((Store.ORule <$> (Violation.rule <$> policyViolations))
   ++ imap (fun i v => Store.OViolation i (Violation.lineNumber v) (Violation.code v)
                         (Violation.message v) (Violation.remediation v)) policyViolations
   ++ [Store.OArray [5; 6; 7; 8; 9]])%list.

(** A store in which the array holds one violation record twice and two
    records share their rule object: the rule at 0, the records at 1 and 2,
    the array at 3. *)
Definition shared_store : list Store.object :=
  [ Store.ORule (Rule.mk "BANK_003" "SQL Injection Risk" "high" "security");
    Store.OViolation 0 29 "  const query = `SELECT * FROM users WHERE id = ${userId}`"
      "Potential SQL injection vulnerability detected"
      "Use parameterized queries or ORM libraries";
    Store.OViolation 0 57 "  db.run('DELETE FROM users WHERE id = ' + id)"
      "Potential SQL injection vulnerability detected"
      "Use parameterized queries or ORM libraries";
    Store.OArray [1; 2; 1] ].

Definition shared_violations : list Violation.t :=
  [ Violation.mk (Rule.mk "BANK_003" "SQL Injection Risk" "high" "security") 29
      "  const query = `SELECT * FROM users WHERE id = ${userId}`"
      "Potential SQL injection vulnerability detected"
      "Use parameterized queries or ORM libraries";
    Violation.mk (Rule.mk "BANK_003" "SQL Injection Risk" "high" "security") 57
      "  db.run('DELETE FROM users WHERE id = ' + id)"
      "Potential SQL injection vulnerability detected"
      "Use parameterized queries or ORM libraries";
    Violation.mk (Rule.mk "BANK_003" "SQL Injection Risk" "high" "security") 29
      "  const query = `SELECT * FROM users WHERE id = ${userId}`"
      "Potential SQL injection vulnerability detected"
      "Use parameterized queries or ORM libraries" ].

(** ** Severity buckets *)

Lemma count_severity_nil level : count_severity level [] = 0.
Proof. reflexivity. Qed.

Lemma count_severity_cons level v vs :
  count_severity level (v :: vs) =
  (if String.eqb (severity_of v) level then 1 else 0) + count_severity level vs.
Proof.
  unfold count_severity. simpl.
  destruct (String.eqb (severity_of v) level); reflexivity.
Qed.

Lemma count_severity_zero level vs :
  count_severity level vs = 0 <-> Forall (fun v => severity_of v <> level) vs.
Proof.
  induction vs as [|v vs IH].
  - split; [constructor | reflexivity].
  - rewrite count_severity_cons, Forall_cons.
    destruct (String.eqb_spec (severity_of v) level) as [E|E].
    + split; [discriminate | intros [H _]; contradiction].
    + simpl. rewrite IH. tauto.
Qed.

Lemma count_severity_pos level vs :
  0 < count_severity level vs <-> Exists (fun v => severity_of v = level) vs.
Proof.
  induction vs as [|v vs IH].
  - rewrite count_severity_nil, Exists_nil. lia.
  - rewrite count_severity_cons, Exists_cons.
    destruct (String.eqb_spec (severity_of v) level) as [E|E].
    + split; [auto | lia].
    + simpl. rewrite IH. tauto.
Qed.

(** Every violation falls in exactly one of five classes: the four buckets
    and the unrecognized ones. *)
Lemma severity_partition vs :
  count_severity "critical" vs + count_severity "high" vs
  + count_severity "medium" vs + count_severity "low" vs
  + length (unrecognized vs) = length vs.
Proof.
  induction vs as [|v vs IH]; [reflexivity|].
  rewrite !count_severity_cons. unfold unrecognized in *.
  rewrite filter_cons. simpl length.
  destruct (decide (severity_of v ∉ known_severities)) as [Hn|Hy].
  - assert (forall l, l ∈ known_severities -> String.eqb (severity_of v) l = false) as Hl.
    { intros l Hin. apply String.eqb_neq. intros <-. contradiction. }
    rewrite !Hl by (unfold known_severities; set_solver).
    simpl length. lia.
  - apply dec_stable in Hy. unfold known_severities in Hy.
    repeat (apply elem_of_cons in Hy as [->|Hy]); [..|by apply elem_of_nil in Hy];
      simpl; lia.
Qed.

Lemma unrecognized_nil_iff vs :
  unrecognized vs = [] <-> Forall (fun v => severity_of v ∈ known_severities) vs.
Proof.
  unfold unrecognized. induction vs as [|v vs IH].
  - split; [constructor | reflexivity].
  - rewrite filter_cons, Forall_cons.
    destruct (decide (severity_of v ∉ known_severities)) as [Hn|Hy].
    + split; [discriminate | intros [H _]; contradiction].
    + apply dec_stable in Hy. rewrite IH. tauto.
Qed.

Lemma unrecognized_pos_iff vs :
  0 < length (unrecognized vs) <-> Exists (fun v => severity_of v ∉ known_severities) vs.
Proof.
  unfold unrecognized. induction vs as [|v vs IH].
  - rewrite Exists_nil. simpl. lia.
  - rewrite filter_cons, Exists_cons.
    destruct (decide (severity_of v ∉ known_severities)) as [Hn|Hy].
    + simpl. split; [auto | lia].
    + rewrite IH. tauto.
Qed.

(** ** The category mapping

    A name that [Object.prototype] does not define behaves as a plain
    counter, in the sense of [counter_at]. *)

Lemma occurrences_cons k v vs :
  occurrences k (v :: vs) =
  (if String.eqb (category_of v) k then 1 else 0) + occurrences k vs.
Proof.
  unfold occurrences. simpl.
  destruct (String.eqb (category_of v) k); reflexivity.
Qed.

Lemma not_inherited_proto k : ObjectPrototype !! k = None -> String.eqb k "__proto__" = false.
Proof.
  intros H. apply String.eqb_neq. intros ->. discriminate H.
Qed.

Lemma Get_counter o k :
  ObjectPrototype !! k = None -> counter_at o k ->
  Get o k = (if (category_count o k =? 0)%nat then Undefined
             else Prim (PNumber (category_count o k))).
Proof.
  intros Hk [Ho|[n Ho]]; unfold Get, category_count; rewrite Ho; simpl.
  - by rewrite Hk.
  - reflexivity.
Qed.

Lemma count_category_same o v :
  ObjectPrototype !! category_of v = None -> counter_at o (category_of v) ->
  count_category o v !! category_of v
  = Some (PNumber (S (category_count o (category_of v)))).
Proof.
  intros Hk Hc. unfold count_category, Put.
  rewrite (not_inherited_proto _ Hk), lookup_insert_eq.
  rewrite (Get_counter _ _ Hk Hc).
  destruct Hc as [Ho|[n Ho]]; unfold category_count; rewrite Ho; simpl.
  - reflexivity.
  - do 2 f_equal. lia.
Qed.

Lemma count_category_other o v k :
  category_of v <> k -> count_category o v !! k = o !! k.
Proof.
  intros Hne. unfold count_category, Put.
  destruct (String.eqb (category_of v) "__proto__"); [reflexivity|].
  by rewrite lookup_insert_ne.
Qed.

Lemma count_category_step o v k :
  ObjectPrototype !! k = None -> counter_at o k ->
  counter_at (count_category o v) k /\
  category_count (count_category o v) k
  = category_count o k + (if String.eqb (category_of v) k then 1 else 0).
Proof.
  intros Hk Hc. destruct (String.eqb_spec (category_of v) k) as [<-|Hne].
  - pose proof (count_category_same o v Hk Hc) as Hs. split.
    + right. eauto.
    + unfold category_count at 1. rewrite Hs. simpl. lia.
  - pose proof (count_category_other o v k Hne) as Hs. split.
    + unfold counter_at. by rewrite Hs.
    + unfold category_count. rewrite Hs. lia.
Qed.

Lemma fold_count_category vs : forall o k,
  ObjectPrototype !! k = None -> counter_at o k ->
  counter_at (fold_left count_category vs o) k /\
  category_count (fold_left count_category vs o) k
  = category_count o k + occurrences k vs.
Proof.
  induction vs as [|v vs IH]; intros o k Hk Hc; simpl.
  - split; [assumption | unfold occurrences; simpl; lia].
  - destruct (count_category_step o v k Hk Hc) as [Hc' Hn].
    destruct (IH _ k Hk Hc') as [Hc'' Hn'].
    split; [assumption|]. rewrite Hn', Hn, occurrences_cons. lia.
Qed.

(** The mapping of a report counts the violations of every category that
    is not a name of [Object.prototype]. *)
Lemma byCategory_counter vs k :
  ObjectPrototype !! k = None ->
  counter_at (fold_left count_category vs ∅) k /\
  category_count (fold_left count_category vs ∅) k = occurrences k vs.
Proof.
  intros Hk.
  destruct (fold_count_category vs ∅ k Hk) as [H1 H2].
  - left. apply lookup_empty.
  - split; [assumption|]. rewrite H2. unfold category_count.
    by rewrite lookup_empty.
Qed.

(** What the callback stores for a category that is not a name of
    [Object.prototype]. *)
Lemma count_category_insert o v :
  ObjectPrototype !! category_of v = None -> counter_at o (category_of v) ->
  count_category o v
  = <[category_of v := PNumber (S (category_count o (category_of v)))]> o.
Proof.
  intros Hk Hc.
  assert (count_category o v !! category_of v
          = Some (PNumber (S (category_count o (category_of v))))) as Hs
    by (by apply count_category_same).
  unfold count_category, Put in *.
  rewrite (not_inherited_proto _ Hk) in *.
  rewrite lookup_insert_eq in Hs. by injection Hs as ->.
Qed.

Lemma sum_counts_insert_fresh (o : JSObject) k p :
  o !! k = None -> sum_counts (<[k := p]> o) = count_of p + sum_counts o.
Proof.
  intros Ho. unfold sum_counts.
  rewrite map_fold_insert_L; [reflexivity| |assumption].
  intros. lia.
Qed.

Lemma sum_counts_lookup (o : JSObject) k q :
  o !! k = Some q -> sum_counts o = count_of q + sum_counts (delete k o).
Proof.
  intros Ho. unfold sum_counts.
  rewrite (map_fold_delete_L _ _ k q o); [reflexivity| |assumption].
  intros. lia.
Qed.

Lemma sum_counts_insert (o : JSObject) k p :
  sum_counts (<[k := p]> o) + category_count o k = count_of p + sum_counts o.
Proof.
  unfold category_count. destruct (o !! k) as [q|] eqn:Ho; simpl.
  - rewrite (sum_counts_lookup o k q Ho), <- insert_delete_eq.
    rewrite sum_counts_insert_fresh by apply lookup_delete_eq. lia.
  - rewrite sum_counts_insert_fresh by assumption. lia.
Qed.

Lemma fold_sum_counts vs : forall o,
  Forall (fun v => ObjectPrototype !! category_of v = None) vs ->
  (forall k, ObjectPrototype !! k = None -> counter_at o k) ->
  sum_counts (fold_left count_category vs o) = sum_counts o + length vs.
Proof.
  induction vs as [|v vs IH]; intros o Hvs Ho; simpl; [lia|].
  apply Forall_cons in Hvs as [Hv Hvs].
  rewrite IH; [|assumption|].
  - rewrite (count_category_insert o v Hv (Ho _ Hv)).
    pose proof (sum_counts_insert o (category_of v)
                  (PNumber (S (category_count o (category_of v))))) as Hs.
    simpl in Hs. lia.
  - intros k Hk. by apply count_category_step; [|apply Ho].
Qed.

(** ** The recommendation list *)

Ltac solve_sublist :=
  repeat first [ apply sublist_nil | apply sublist_skip | apply sublist_cons ].

Lemma all_messages_NoDup : NoDup all_messages.
Proof. apply (bool_decide_unpack _). vm_compute. exact I. Qed.

(** Six guarded [push]es leave a sublist of the six messages that holds
    exactly the messages whose guard was true. *)
Lemma push_chain b1 b2 b3 b4 b5 b6 :
  let r := push_if b6 msg_security (push_if b5 msg_audit
            (push_if b4 msg_data_protection (push_if b3 msg_medium
              (push_if b2 msg_high (push_if b1 msg_critical []))))) in
  r `sublist_of` all_messages /\
  bool_decide (msg_critical ∈ r) = b1 /\
  bool_decide (msg_high ∈ r) = b2 /\
  bool_decide (msg_medium ∈ r) = b3 /\
  bool_decide (msg_data_protection ∈ r) = b4 /\
  bool_decide (msg_audit ∈ r) = b5 /\
  bool_decide (msg_security ∈ r) = b6.
Proof.
  destruct b1, b2, b3, b4, b5, b6; cbn [push_if app];
    (split; [unfold all_messages; solve_sublist | vm_compute; repeat split]).
Qed.

Lemma bool_decide_eq_iff (P Q : Prop) `{Decision P} (b : bool) :
  bool_decide P = b -> (b = true <-> Q) -> (P <-> Q).
Proof.
  intros <- HQ. rewrite <- HQ. symmetry. apply bool_decide_eq_true.
Qed.

Section Recommendations.

Variable string_gt_zero : string -> bool.

(** The three category tests read a counter, so the comparison is one of
    numbers. *)
Lemma gt_zero_category vs k :
  ObjectPrototype !! k = None ->
  gt_zero string_gt_zero (Get (fold_left count_category vs ∅) k)
  = (0 <? category_count (fold_left count_category vs ∅) k)%nat.
Proof.
  intros Hk. destruct (byCategory_counter vs k Hk) as [Hc _].
  rewrite (Get_counter _ _ Hk Hc).
  destruct (category_count _ k); reflexivity.
Qed.

Lemma recommendations_guards vs :
  let s := Report.summary (generatePolicyReport string_gt_zero vs) in
  Report.recommendations (generatePolicyReport string_gt_zero vs)
  = push_if (0 <? category_count (Summary.byCategory s) "security")%nat msg_security
      (push_if (0 <? category_count (Summary.byCategory s) "audit")%nat msg_audit
        (push_if (0 <? category_count (Summary.byCategory s) "data-protection")%nat
                 msg_data_protection
          (push_if (0 <? Summary.medium s)%nat msg_medium
            (push_if (0 <? Summary.high s)%nat msg_high
              (push_if (0 <? Summary.critical s)%nat msg_critical []))))).
Proof.
  unfold generatePolicyReport. cbn [Report.recommendations Report.summary Summary.byCategory
    Summary.critical Summary.high Summary.medium].
  by rewrite !gt_zero_category.
Qed.

End Recommendations.

(** ** The report *)

Section ReportProperties.

Variable string_gt_zero : string -> bool.

Lemma report_runtime_independent (string_gt_zero' : string -> bool) vs :
  generatePolicyReport string_gt_zero vs = generatePolicyReport string_gt_zero' vs.
Proof.
  pose proof (recommendations_guards string_gt_zero vs) as H1.
  pose proof (recommendations_guards string_gt_zero' vs) as H2.
  unfold generatePolicyReport in *. cbn in H1, H2 |- *. f_equal.
  by rewrite H1, H2.
Qed.

(** C1. The verdict [passed] is true exactly when the critical and the high
    count of the summary are both zero, that is, exactly when no violation
    of the input has severity critical or high: violations of any other
    severity never make it false. *)
Theorem passed_iff_no_critical_no_high vs :
  (Report.passed (generatePolicyReport string_gt_zero vs) = true <->
     Summary.critical (Report.summary (generatePolicyReport string_gt_zero vs)) = 0 /\
     Summary.high (Report.summary (generatePolicyReport string_gt_zero vs)) = 0) /\
  (Report.passed (generatePolicyReport string_gt_zero vs) = true <->
     Forall (fun v => severity_of v <> "critical" /\ severity_of v <> "high") vs).
Proof.
  assert (Report.passed (generatePolicyReport string_gt_zero vs) = true <->
          count_severity "critical" vs = 0 /\ count_severity "high" vs = 0) as H.
  { cbn. rewrite andb_true_iff, !Nat.eqb_eq. reflexivity. }
  split; [exact H|].
  rewrite H, !count_severity_zero, Forall_and. reflexivity.
Qed.

(** C2. [summary.total] is the length of the input list, the empty list
    included. *)
Theorem total_is_length vs :
  Summary.total (Report.summary (generatePolicyReport string_gt_zero vs)) = length vs.
Proof. reflexivity. Qed.

(** C3 (amended). The four per-severity counts and the number of
    violations whose severity is none of the four levels add up to
    [summary.total]; the four counts alone add up to at most
    [summary.total]. *)
Theorem severity_sum_plus_unrecognized vs :
  severity_sum (Report.summary (generatePolicyReport string_gt_zero vs))
  + length (unrecognized vs)
  = Summary.total (Report.summary (generatePolicyReport string_gt_zero vs)) /\
  severity_sum (Report.summary (generatePolicyReport string_gt_zero vs))
  <= Summary.total (Report.summary (generatePolicyReport string_gt_zero vs)).
Proof.
  pose proof (severity_partition vs) as Hp.
  unfold severity_sum. cbn. lia.
Qed.

(** C4. When every severity of the input is one of critical, high, medium
    and low, the four counts add up to [summary.total]; when some violation
    has another severity, their sum is strictly less than [summary.total]. *)
Theorem severity_sum_recognized vs :
  (Forall (fun v => severity_of v ∈ known_severities) vs ->
     severity_sum (Report.summary (generatePolicyReport string_gt_zero vs))
     = Summary.total (Report.summary (generatePolicyReport string_gt_zero vs))) /\
  (Exists (fun v => severity_of v ∉ known_severities) vs ->
     severity_sum (Report.summary (generatePolicyReport string_gt_zero vs))
     < Summary.total (Report.summary (generatePolicyReport string_gt_zero vs))).
Proof.
  pose proof (severity_partition vs) as Hp.
  unfold severity_sum. cbn. split.
  - intros Hall. apply unrecognized_nil_iff in Hall. rewrite Hall in Hp.
    simpl in Hp. lia.
  - intros Hex. apply unrecognized_pos_iff in Hex. lia.
Qed.

(** C5. The recommendation list is a sublist of the six messages taken in
    the order critical, high, medium, data-protection, audit, security, has
    no message twice, and holds each message exactly when its condition
    holds: a positive critical, high or medium count, and a positive count
    for the category data-protection, audit or security in the mapping. *)
Theorem recommendations_fixed_order vs :
  Report.recommendations (generatePolicyReport string_gt_zero vs) `sublist_of` all_messages /\
  NoDup (Report.recommendations (generatePolicyReport string_gt_zero vs)) /\
  (msg_critical ∈ Report.recommendations (generatePolicyReport string_gt_zero vs) <->
     0 < Summary.critical (Report.summary (generatePolicyReport string_gt_zero vs))) /\
  (msg_high ∈ Report.recommendations (generatePolicyReport string_gt_zero vs) <->
     0 < Summary.high (Report.summary (generatePolicyReport string_gt_zero vs))) /\
  (msg_medium ∈ Report.recommendations (generatePolicyReport string_gt_zero vs) <->
     0 < Summary.medium (Report.summary (generatePolicyReport string_gt_zero vs))) /\
  (msg_data_protection ∈ Report.recommendations (generatePolicyReport string_gt_zero vs) <->
     0 < category_count
           (Summary.byCategory (Report.summary (generatePolicyReport string_gt_zero vs)))
           "data-protection") /\
  (msg_audit ∈ Report.recommendations (generatePolicyReport string_gt_zero vs) <->
     0 < category_count
           (Summary.byCategory (Report.summary (generatePolicyReport string_gt_zero vs)))
           "audit") /\
  (msg_security ∈ Report.recommendations (generatePolicyReport string_gt_zero vs) <->
     0 < category_count
           (Summary.byCategory (Report.summary (generatePolicyReport string_gt_zero vs)))
           "security").
Proof.
  rewrite recommendations_guards.
  match goal with
  | |- context [push_if ?b6 _ (push_if ?b5 _ (push_if ?b4 _
                  (push_if ?b3 _ (push_if ?b2 _ (push_if ?b1 _ _)))))] =>
      destruct (push_chain b1 b2 b3 b4 b5 b6)
        as (Hsub & H1 & H2 & H3 & H4 & H5 & H6)
  end.
  cbv zeta in Hsub, H1, H2, H3, H4, H5, H6.
  split; [exact Hsub|].
  split; [exact (sublist_NoDup _ _ all_messages_NoDup Hsub)|].
  repeat match goal with |- _ /\ _ => split end;
    (eapply bool_decide_eq_iff; [eassumption | apply Nat.ltb_lt]).
Qed.

(** C6 (amended). On the five violations of the script the report has
    total 5, critical 2, high 2, medium 1, low 0 and passed false; the
    category mapping is security 3, data-protection 1, audit 1 and holds no
    other category; the recommendations are the six messages in the order
    critical, high, medium, data-protection, audit, security. *)
Theorem policyViolations_report :
  Summary.total (Report.summary (generatePolicyReport string_gt_zero policyViolations)) = 5 /\
  Summary.critical (Report.summary (generatePolicyReport string_gt_zero policyViolations)) = 2 /\
  Summary.high (Report.summary (generatePolicyReport string_gt_zero policyViolations)) = 2 /\
  Summary.medium (Report.summary (generatePolicyReport string_gt_zero policyViolations)) = 1 /\
  Summary.low (Report.summary (generatePolicyReport string_gt_zero policyViolations)) = 0 /\
  Report.passed (generatePolicyReport string_gt_zero policyViolations) = false /\
  Summary.byCategory (Report.summary (generatePolicyReport string_gt_zero policyViolations))
  = {[ "security" := PNumber 3; "data-protection" := PNumber 1; "audit" := PNumber 1 ]} /\
  length (Report.recommendations (generatePolicyReport string_gt_zero policyViolations)) = 6 /\
  Report.recommendations (generatePolicyReport string_gt_zero policyViolations) = all_messages.
Proof. repeat apply conj; vm_compute; reflexivity. Qed.

(** C8. On the empty list the report has total 0, passed true and no
    recommendation. *)
Theorem empty_report :
  Summary.total (Report.summary (generatePolicyReport string_gt_zero [])) = 0 /\
  Report.passed (generatePolicyReport string_gt_zero []) = true /\
  Report.recommendations (generatePolicyReport string_gt_zero []) = [].
Proof. repeat apply conj; reflexivity. Qed.

(** C9. The recommendation list never has more than six entries. *)
Theorem recommendations_at_most_six vs :
  length (Report.recommendations (generatePolicyReport string_gt_zero vs)) <= 6.
Proof.
  rewrite recommendations_guards.
  match goal with
  | |- context [push_if ?b6 _ (push_if ?b5 _ (push_if ?b4 _
                  (push_if ?b3 _ (push_if ?b2 _ (push_if ?b1 _ _)))))] =>
      destruct (push_chain b1 b2 b3 b4 b5 b6) as [Hsub _]
  end.
  apply (sublist_length _ _ Hsub).
Qed.

(** X1. The counts of the mapping add up to [summary.total] as long as no
    category is a name that [Object.prototype] defines. *)
Lemma category_counts_sum vs :
  Forall (fun v => ObjectPrototype !! category_of v = None) vs ->
  sum_counts (Summary.byCategory (Report.summary (generatePolicyReport string_gt_zero vs)))
  = Summary.total (Report.summary (generatePolicyReport string_gt_zero vs)).
Proof.
  intros Hvs. cbn. rewrite fold_sum_counts; [reflexivity|assumption|].
  intros k _. left. apply lookup_empty.
Qed.

(** For such a category the mapping holds the number of its violations. *)
Lemma category_count_occurrences vs k :
  ObjectPrototype !! k = None ->
  category_count (Summary.byCategory (Report.summary (generatePolicyReport string_gt_zero vs))) k
  = occurrences k vs.
Proof. intros Hk. cbn. by apply byCategory_counter. Qed.

End ReportProperties.

(** ** Evaluations *)

(** C3, as stated, fails: one violation of severity info is counted in the
    total and in none of the four buckets. *)
Lemma severity_sum_misses_unrecognized :
  severity_sum (Report.summary (generatePolicyReport never_positive [info_violation]))
  <> Summary.total (Report.summary (generatePolicyReport never_positive [info_violation])).
Proof. vm_compute. discriminate. Qed.

(** C4 at one violation of severity low, and at one of severity info. *)
Lemma severity_sum_recognized_witness :
  severity_sum (Report.summary (generatePolicyReport never_positive [low_violation]))
  = Summary.total (Report.summary (generatePolicyReport never_positive [low_violation])) /\
  severity_sum (Report.summary (generatePolicyReport never_positive [info_violation]))
  < Summary.total (Report.summary (generatePolicyReport never_positive [info_violation])).
Proof.
  split.
  - apply (proj1 (severity_sum_recognized never_positive [low_violation])).
    apply (bool_decide_unpack _). vm_compute. exact I.
  - apply (proj2 (severity_sum_recognized never_positive [info_violation])).
    apply (bool_decide_unpack _). vm_compute. exact I.
Defined.

(** C6, as stated, fails: the script has three violations of category
    security, not two, and no fourth category. *)
Lemma policyViolations_not_as_stated :
  ~ (Summary.critical (Report.summary (generatePolicyReport never_positive policyViolations)) = 2 /\
     Summary.high (Report.summary (generatePolicyReport never_positive policyViolations)) = 2 /\
     Summary.medium (Report.summary (generatePolicyReport never_positive policyViolations)) = 1 /\
     Summary.low (Report.summary (generatePolicyReport never_positive policyViolations)) = 0 /\
     Report.passed (generatePolicyReport never_positive policyViolations) = false /\
     category_count
       (Summary.byCategory (Report.summary (generatePolicyReport never_positive policyViolations)))
       "security" = 2 /\
     category_count
       (Summary.byCategory (Report.summary (generatePolicyReport never_positive policyViolations)))
       "data-protection" = 1 /\
     category_count
       (Summary.byCategory (Report.summary (generatePolicyReport never_positive policyViolations)))
       "audit" = 1 /\
     (exists k, (k ∉ ["security"; "data-protection"; "audit"]) /\
        category_count
          (Summary.byCategory (Report.summary (generatePolicyReport never_positive policyViolations)))
          k = 1) /\
     Report.recommendations (generatePolicyReport never_positive policyViolations) = all_messages).
Proof.
  intros (_ & _ & _ & _ & _ & Hsec & _). vm_compute in Hsec. discriminate Hsec.
Qed.

(** C7 at a violation of category [__proto__]: the violation is counted in
    the total, the assignment of line 85 is swallowed by the inherited
    setter, and the mapping stays empty. *)
Lemma proto_category_not_counted :
  Summary.total (Report.summary (generatePolicyReport never_positive [proto_violation])) = 1 /\
  Summary.byCategory (Report.summary (generatePolicyReport never_positive [proto_violation])) = ∅ /\
  sum_counts (Summary.byCategory (Report.summary (generatePolicyReport never_positive [proto_violation]))) = 0.
Proof. repeat apply conj; vm_compute; reflexivity. Qed.

(** One critical violation of category security: the critical message, then
    the security message. *)
Example single_critical_security :
  Report.recommendations (generatePolicyReport never_positive (take 1 policyViolations))
  = [msg_critical; msg_security] /\
  Report.passed (generatePolicyReport never_positive (take 1 policyViolations)) = false.
Proof. split; reflexivity. Qed.

(** Violations of severity low and info only: the verdict is passed. *)
Example low_and_info_pass :
  Report.passed (generatePolicyReport never_positive [low_violation; info_violation]) = true /\
  Summary.total (Report.summary (generatePolicyReport never_positive [low_violation; info_violation])) = 2.
Proof. split; reflexivity. Qed.

(** A category named as a method of [Object.prototype] gets a string for a
    count. *)
Example constructor_category_is_a_string :
  Summary.byCategory
    (Report.summary (generatePolicyReport never_positive
                       [constructor_violation; constructor_violation]))
  = {[ "constructor" := PString "function Object() { [native code] }11" ]}.
Proof. reflexivity. Qed.

(** ** Runs of the program over the store *)

Section StoreRuns.

Lemma bind_run {A B} (m : Store.M A) (f : A -> Store.M B) h a h' :
  m h = Some (a, h') -> (m ≫= f) h = f a h'.
Proof. intros Hm. unfold mbind, Store.M_bind, Store.bind. by rewrite Hm. Qed.

(** One step of a run: the first computation of a sequence is replaced by
    its result. *)
Ltac run_by tac := (erewrite bind_run by tac); cbv beta iota.
Ltac run_with H := run_by ltac:(exact H).

Lemma lookup_tail (h t : Store.store) i : (h ++ t)%list !! (length h + i) = t !! i.
Proof. rewrite lookup_app_r by lia. f_equal. lia. Qed.

(** *** What the store holds stays readable as objects are added *)

Lemma load_violation_app h k l v :
  Store.load_violation h l = Some v -> Store.load_violation (h ++ k)%list l = Some v.
Proof.
  unfold Store.load_violation. intros H.
  destruct (h !! l) as [[]|] eqn:Hl; try discriminate.
  rewrite (lookup_app_l_Some _ _ _ _ Hl).
  destruct (h !! rule) as [[]|] eqn:Hr; try discriminate.
  by rewrite (lookup_app_l_Some _ _ _ _ Hr).
Qed.

Lemma load_all_app h k ls vs :
  Store.load_all h ls = Some vs -> Store.load_all (h ++ k)%list ls = Some vs.
Proof.
  revert vs. induction ls as [|l ls IH]; intros vs H; simpl in *; [assumption|].
  destruct (Store.load_violation h l) as [v|] eqn:Hv; [|discriminate].
  destruct (Store.load_all h ls) as [vs'|]; [|discriminate].
  by rewrite (load_violation_app _ k _ _ Hv), (IH _ eq_refl).
Qed.

Lemma load_violations_app h k a vs :
  Store.load_violations h a = Some vs -> Store.load_violations (h ++ k)%list a = Some vs.
Proof.
  unfold Store.load_violations. intros H.
  destruct (h !! a) as [[]|] eqn:Ha; try discriminate.
  rewrite (lookup_app_l_Some _ _ _ _ Ha). by apply load_all_app.
Qed.

Lemma load_summary_app h k s sm :
  Store.load_summary h s = Some sm -> Store.load_summary (h ++ k)%list s = Some sm.
Proof.
  unfold Store.load_summary. intros H.
  destruct (h !! s) as [[]|] eqn:Hs; try discriminate.
  rewrite (lookup_app_l_Some _ _ _ _ Hs).
  destruct (h !! byCategory) as [[]|] eqn:Hb; try discriminate.
  by rewrite (lookup_app_l_Some _ _ _ _ Hb).
Qed.

Lemma load_all_length h ls vs : Store.load_all h ls = Some vs -> length ls = length vs.
Proof.
  revert vs. induction ls as [|l ls IH]; intros vs H; simpl in *.
  - by injection H as <-.
  - destruct (Store.load_violation h l); [|discriminate].
    destruct (Store.load_all h ls); [|discriminate].
    injection H as <-. simpl. f_equal. by apply IH.
Qed.

(** *** Reads *)

Lemma read_array_run h a ls :
  h !! a = Some (Store.OArray ls) -> Store.read_array a h = Some (ls, h).
Proof.
  intros H. unfold Store.read_array.
  run_by ltac:(unfold Store.read; by rewrite H). reflexivity.
Qed.

Lemma rule_of_run h l v :
  Store.load_violation h l = Some v -> Store.rule_of l h = Some (Violation.rule v, h).
Proof.
  unfold Store.load_violation, Store.rule_of. intros H.
  destruct (h !! l) as [[]|] eqn:Hl; try discriminate.
  destruct (h !! rule) as [[]|] eqn:Hr; try discriminate.
  injection H as <-.
  run_by ltac:(unfold Store.read; by rewrite Hl).
  run_by ltac:(unfold Store.read; by rewrite Hr).
  reflexivity.
Qed.

Lemma read_summary_run h s sm :
  Store.load_summary h s = Some sm -> Store.read_summary s h = Some (sm, h).
Proof.
  unfold Store.load_summary, Store.read_summary. intros H.
  destruct (h !! s) as [[]|] eqn:Hs; try discriminate.
  destruct (h !! byCategory) as [[]|] eqn:Hb; try discriminate.
  injection H as <-.
  run_by ltac:(unfold Store.read; by rewrite Hs).
  run_by ltac:(unfold Store.read; by rewrite Hb).
  reflexivity.
Qed.

(** *** The four [filter] calls *)

Lemma filter_severity_run level h ls vs :
  Store.load_all h ls = Some vs ->
  exists kept, Store.filter_severity level ls h = Some (kept, h) /\
               length kept = count_severity level vs.
Proof.
  revert vs. induction ls as [|l ls IH]; intros vs H; simpl in H.
  - injection H as <-. by exists [].
  - destruct (Store.load_violation h l) as [v|] eqn:Hv; [|discriminate].
    destruct (Store.load_all h ls) as [vs'|]; [|discriminate].
    injection H as <-. destruct (IH _ eq_refl) as (kept & Hrun & Hlen).
    eexists. simpl. split.
    + run_with (rule_of_run _ _ _ Hv). run_with Hrun. reflexivity.
    + rewrite count_severity_cons. unfold severity_of.
      destruct (String.eqb _ level); simpl; lia.
Qed.

Lemma count_severity_run level h a vs :
  Store.load_violations h a = Some vs ->
  exists kept, Store.count_severity level a h
               = Some (count_severity level vs, (h ++ [Store.OArray kept])%list).
Proof.
  unfold Store.load_violations. intros H.
  destruct (h !! a) as [[]|] eqn:Ha; try discriminate.
  destruct (filter_severity_run level _ _ _ H) as (kept & Hrun & Hlen).
  exists kept. unfold Store.count_severity.
  run_with (read_array_run _ _ _ Ha). run_with Hrun.
  run_by ltac:(reflexivity).
  run_by ltac:(apply read_array_run; by apply list_lookup_middle).
  unfold Store.ret. by rewrite Hlen.
Qed.

(** *** The [forEach] loop *)

Lemma load_violation_insert h bc own own' l v :
  h !! bc = Some (Store.OCounts own) ->
  Store.load_violation h l = Some v ->
  Store.load_violation (<[bc := Store.OCounts own']> h) l = Some v.
Proof.
  unfold Store.load_violation. intros Hbc H.
  destruct (h !! l) as [[]|] eqn:Hl; try discriminate.
  destruct (h !! rule) as [[]|] eqn:Hr; try discriminate.
  rewrite list_lookup_insert_ne, Hl by congruence.
  by rewrite list_lookup_insert_ne, Hr by congruence.
Qed.

Lemma load_all_insert h bc own own' ls vs :
  h !! bc = Some (Store.OCounts own) ->
  Store.load_all h ls = Some vs ->
  Store.load_all (<[bc := Store.OCounts own']> h) ls = Some vs.
Proof.
  intros Hbc. revert vs. induction ls as [|l ls IH]; intros vs H; simpl in *; [assumption|].
  destruct (Store.load_violation h l) as [v|] eqn:Hv; [|discriminate].
  destruct (Store.load_all h ls) as [vs'|]; [|discriminate].
  by rewrite (load_violation_insert _ _ _ own' _ _ Hbc Hv), (IH _ eq_refl).
Qed.

Lemma count_category_run h s bc total critical high medium low own l v :
  h !! s = Some (Store.OSummary total critical high medium low bc) ->
  h !! bc = Some (Store.OCounts own) ->
  Store.load_violation h l = Some v ->
  Store.count_category s l h
  = Some (tt, <[bc := Store.OCounts (count_category own v)]> h).
Proof.
  intros Hs Hbc Hv. unfold Store.count_category.
  run_by ltac:(unfold Store.read; by rewrite Hs).
  run_with (rule_of_run _ _ _ Hv).
  run_by ltac:(unfold Store.read; by rewrite Hbc).
  unfold Store.write. apply lookup_lt_Some in Hbc.
  by rewrite decide_True.
Qed.

Lemma forEach_run s bc total critical high medium low ls : forall vs h own,
  h !! s = Some (Store.OSummary total critical high medium low bc) ->
  h !! bc = Some (Store.OCounts own) ->
  Store.load_all h ls = Some vs ->
  Store.forEach ls (Store.count_category s) h
  = Some (tt, <[bc := Store.OCounts (fold_left count_category vs own)]> h).
Proof.
  induction ls as [|l ls IH]; intros vs h own Hs Hbc H; simpl in H.
  - injection H as <-. simpl. by rewrite (list_insert_id _ _ _ Hbc).
  - destruct (Store.load_violation h l) as [v|] eqn:Hv; [|discriminate].
    destruct (Store.load_all h ls) as [vs'|] eqn:Hvs; [|discriminate].
    injection H as <-. simpl.
    run_with (count_category_run _ _ _ _ _ _ _ _ _ _ _ Hs Hbc Hv).
    erewrite IH; [by rewrite list_insert_insert_eq| | |].
    + rewrite list_lookup_insert_ne; [exact Hs | congruence].
    + apply list_lookup_insert_eq. by apply lookup_lt_Some in Hbc.
    + by eapply load_all_insert.
Qed.

(** *** The recommendations *)

Lemma when_push_run (h : Store.store) b msg elems :
  Store.when b (Store.push (length h) msg) (h ++ [Store.OStrings elems])%list
  = Some (tt, (h ++ [Store.OStrings (push_if b msg elems)])%list).
Proof.
  destruct b; [|reflexivity]. unfold Store.when, Store.push, push_if.
  run_by ltac:(unfold Store.read; by rewrite list_lookup_middle).
  unfold Store.write. rewrite decide_True by (rewrite length_app; simpl; lia).
  rewrite insert_app_r_alt, Nat.sub_diag by lia. reflexivity.
Qed.

Section Run.
Variable string_gt_zero : string -> bool.

Lemma generatePolicyReport_run h a vs :
  Store.load_violations h a = Some vs ->
  exists k1 k2 k3 k4,
    Store.generatePolicyReport string_gt_zero a h
    = Some (length h + 7,
            (h ++ [ Store.OArray k1; Store.OArray k2; Store.OArray k3; Store.OArray k4;
                    Store.OCounts (Summary.byCategory (Report.summary (generatePolicyReport string_gt_zero vs)));
                    Store.OSummary (length vs) (count_severity "critical" vs)
                      (count_severity "high" vs) (count_severity "medium" vs)
                      (count_severity "low" vs) (length h + 4);
                    Store.OStrings (Report.recommendations (generatePolicyReport string_gt_zero vs));
                    Store.OReport a (length h + 5)
                      (Report.passed (generatePolicyReport string_gt_zero vs)) (length h + 6) ])%list).
Proof.
  intros Hvs.
  destruct (count_severity_run "critical" _ _ _ Hvs) as [k1 H1].
  pose proof (load_violations_app _ [Store.OArray k1] _ _ Hvs) as Hvs1.
  destruct (count_severity_run "high" _ _ _ Hvs1) as [k2 H2].
  pose proof (load_violations_app _ [Store.OArray k2] _ _ Hvs1) as Hvs2.
  destruct (count_severity_run "medium" _ _ _ Hvs2) as [k3 H3].
  pose proof (load_violations_app _ [Store.OArray k3] _ _ Hvs2) as Hvs3.
  destruct (count_severity_run "low" _ _ _ Hvs3) as [k4 H4].
  exists k1, k2, k3, k4.
  pose proof Hvs as Ha. unfold Store.load_violations in Ha.
  destruct (h !! a) as [[]|] eqn:Hla; try discriminate.
  unfold Store.generatePolicyReport.
  run_with (read_array_run _ _ _ Hla).
  run_with H1. run_with H2. run_with H3. run_with H4.
  run_by ltac:(reflexivity). run_by ltac:(reflexivity).
  rewrite <- !app_assoc. simpl app. rewrite !length_app. simpl length.
  rewrite <- (load_all_length _ _ _ Ha).
  run_by ltac:(apply read_array_run, lookup_app_l_Some, Hla).
  erewrite bind_run; cycle 1.
  { eapply (forEach_run (length h + 5) (length h + 4)).
    - by rewrite lookup_tail.
    - by rewrite lookup_tail.
    - by apply load_all_app. }
  cbv beta iota. rewrite insert_app_r. cbn [insert list_insert].
  match goal with |- context [mbind _ _ ?H7] => set (h7 := H7) end.
  assert (Store.load_summary h7 (length h + 5)
          = Some (Report.summary (generatePolicyReport string_gt_zero vs))) as Hsm.
  { unfold Store.load_summary, h7.
    do 2 (rewrite lookup_tail; cbn [lookup list_lookup]).
    by rewrite (load_all_length _ _ _ Ha). }
  run_by ltac:(apply read_summary_run, Hsm).
  run_by ltac:(reflexivity).
  do 6 (run_by ltac:(apply read_summary_run, load_summary_app, Hsm);
        run_by ltac:(apply when_push_run)).
  unfold Store.alloc, h7. rewrite !length_app, <- !app_assoc.
  cbn [length app Nat.add]. do 2 f_equal. lia.
Qed.
(** C10. Run on a store that holds the array of violations [vs] at
    [violations], the program returns a report object whose [violations]
    field is the reference [violations] itself; the store it leaves extends
    the initial one, so the array, every violation record and every rule
    are the objects they were, the array still holds [vs] element for
    element, and the report read back from the store is the report computed
    on [vs]. *)
Theorem report_keeps_violations h violations vs :
  Store.load_violations h violations = Some vs ->
  exists report h',
    Store.generatePolicyReport string_gt_zero violations h = Some (report, h') /\
    h `prefix_of` h' /\
    Store.violations_field h' report = Some violations /\
    Store.load_violations h' violations = Some vs /\
    Store.load_report h' report = Some (generatePolicyReport string_gt_zero vs).
Proof.
  intros Hvs.
  destruct (generatePolicyReport_run h violations vs Hvs) as (k1 & k2 & k3 & k4 & Hrun).
  eexists _, _. split; [exact Hrun|].
  split; [by eexists|].
  split; [unfold Store.violations_field; by rewrite lookup_tail|].
  split; [by apply load_violations_app|].
  unfold Store.load_report. rewrite lookup_tail. cbn [lookup list_lookup].
  rewrite (load_violations_app _ _ _ _ Hvs).
  unfold Store.load_summary, Store.load_strings.
  do 3 (rewrite lookup_tail; cbn [lookup list_lookup]). reflexivity.
Qed.

End Run.
End StoreRuns.

(** The array of the script in a store, and the report the program leaves
    there. *)
Example policyViolations_store_holds :
  Store.load_violations policyViolations_store 10 = Some policyViolations.
Proof. reflexivity. Qed.

Example policyViolations_store_run :
  match Store.generatePolicyReport never_positive 10 policyViolations_store with
  | Some (report, h') => Store.load_report h' report
  | None => None
  end = Some (generatePolicyReport never_positive policyViolations).
Proof. vm_compute. reflexivity. Qed.

(** C10 on [shared_store]: an array that holds one record twice, and records
    that share a rule. *)
Lemma report_keeps_violations_shared :
  Store.load_violations shared_store 3 = Some shared_violations /\
  exists report h',
    Store.generatePolicyReport never_positive 3 shared_store = Some (report, h') /\
    shared_store `prefix_of` h' /\
    Store.violations_field h' report = Some 3 /\
    Store.load_violations h' 3 = Some shared_violations /\
    Store.load_report h' report = Some (generatePolicyReport never_positive shared_violations).
Proof.
  split; [reflexivity|].
  apply (report_keeps_violations never_positive shared_store 3 shared_violations).
  reflexivity.
Defined.

(** * Further properties of the aggregator and of the display helpers *)

Example getSeverityEmoji_examples :
  getSeverityEmoji "high" = Prim (PString "🟠") /\
  getSeverityEmoji "info" = Prim (PString "⚪") /\
  getSeverityEmoji "valueOf" = native "valueOf" /\
  getCategoryEmoji "audit" = Prim (PString "📋") /\
  getCategoryEmoji "performance" = Prim (PString "📝") /\
  getCategoryEmoji "__proto__" = Builtin "[object Object]".
Proof. repeat split. Qed.

(** ** The category mapping, continued *)

#[local] Set Warnings "-clear-no-such-hyp".

Lemma occurrences_pos k vs :
  0 < occurrences k vs <-> Exists (fun v => category_of v = k) vs.
Proof.
  induction vs as [|v vs IH].
  - rewrite Exists_nil. unfold occurrences. simpl. lia.
  - rewrite occurrences_cons, Exists_cons.
    destruct (String.eqb_spec (category_of v) k) as [E|E].
    + split; [auto | lia].
    + simpl. rewrite IH. tauto.
Qed.

Lemma count_category_dom o v :
  dom (count_category o v)
  = (if String.eqb (category_of v) "__proto__" then dom o
     else {[category_of v]} ∪ dom o).
Proof.
  unfold count_category, Put.
  destruct (String.eqb (category_of v) "__proto__"); [reflexivity|].
  apply dom_insert_L.
Qed.

Lemma fold_count_category_dom vs : forall o,
  dom (fold_left count_category vs o)
  = dom o ∪ (list_to_set (category_of <$> vs) ∖ {["__proto__"]}).
Proof.
  induction vs as [|v vs IH]; intros o; simpl.
  - set_solver.
  - rewrite IH, count_category_dom.
    destruct (String.eqb_spec (category_of v) "__proto__") as [E|E]; set_solver.
Qed.

Section Mapping.

Variable string_gt_zero : string -> bool.

(** X2. For a category [k] that is not a name of [Object.prototype], the
    mapping has no entry when no violation has category [k], and holds the
    number of those violations otherwise. *)
Theorem byCategory_lookup vs k :
  ObjectPrototype !! k = None ->
  Summary.byCategory (Report.summary (generatePolicyReport string_gt_zero vs)) !! k
  = (if (occurrences k vs =? 0)%nat then None else Some (PNumber (occurrences k vs))).
Proof.
  intros Hk. cbn.
  destruct (byCategory_counter vs k Hk) as [[Ho|[n Ho]] Hn];
    unfold category_count in Hn; rewrite Ho in Hn |- *; simpl in Hn;
    rewrite <- Hn; reflexivity.
Qed.

(** X3. The keys of the mapping are the categories of the input, except
    [__proto__], which never becomes a key. *)
Theorem byCategory_keys vs :
  dom (Summary.byCategory (Report.summary (generatePolicyReport string_gt_zero vs)))
  = list_to_set (category_of <$> vs) ∖ {["__proto__"]}.
Proof.
  cbn. rewrite fold_count_category_dom, dom_empty_L. set_solver.
Qed.

End Mapping.

(** X1 on the violations of the script. *)
Lemma category_counts_sum_policyViolations :
  Forall (fun v => ObjectPrototype !! category_of v = None) policyViolations /\
  sum_counts (Summary.byCategory
                (Report.summary (generatePolicyReport never_positive policyViolations)))
  = Summary.total (Report.summary (generatePolicyReport never_positive policyViolations)).
Proof.
  assert (Forall (fun v => ObjectPrototype !! category_of v = None) policyViolations) as H
    by (repeat constructor).
  split; [exact H|].
  apply (category_counts_sum never_positive policyViolations H).
Defined.

(** X2 at the category security of the script. *)
Lemma byCategory_lookup_security :
  ObjectPrototype !! "security" = None /\
  Summary.byCategory (Report.summary (generatePolicyReport never_positive policyViolations))
    !! "security"
  = (if (occurrences "security" policyViolations =? 0)%nat then None
     else Some (PNumber (occurrences "security" policyViolations))).
Proof.
  split; [reflexivity|].
  apply (byCategory_lookup never_positive policyViolations "security"). reflexivity.
Defined.

(** ** Order and concatenation of the input *)

Lemma count_severity_app level vs ws :
  count_severity level (vs ++ ws)%list = count_severity level vs + count_severity level ws.
Proof. unfold count_severity. by rewrite List.filter_app, length_app. Qed.

Lemma occurrences_app k vs ws :
  occurrences k (vs ++ ws)%list = occurrences k vs + occurrences k ws.
Proof. unfold occurrences. by rewrite List.filter_app, length_app. Qed.






Section Composition.

Variable string_gt_zero : string -> bool.


(** X5. On a concatenation the total and the four severity counts are the
    sums of those of the parts, and the verdict is the conjunction of the
    verdicts of the parts. *)
Theorem report_app vs ws :
  Summary.total (Report.summary (generatePolicyReport string_gt_zero (vs ++ ws)%list))
  = Summary.total (Report.summary (generatePolicyReport string_gt_zero vs))
    + Summary.total (Report.summary (generatePolicyReport string_gt_zero ws)) /\
  Summary.critical (Report.summary (generatePolicyReport string_gt_zero (vs ++ ws)%list))
  = Summary.critical (Report.summary (generatePolicyReport string_gt_zero vs))
    + Summary.critical (Report.summary (generatePolicyReport string_gt_zero ws)) /\
  Summary.high (Report.summary (generatePolicyReport string_gt_zero (vs ++ ws)%list))
  = Summary.high (Report.summary (generatePolicyReport string_gt_zero vs))
    + Summary.high (Report.summary (generatePolicyReport string_gt_zero ws)) /\
  Summary.medium (Report.summary (generatePolicyReport string_gt_zero (vs ++ ws)%list))
  = Summary.medium (Report.summary (generatePolicyReport string_gt_zero vs))
    + Summary.medium (Report.summary (generatePolicyReport string_gt_zero ws)) /\
  Summary.low (Report.summary (generatePolicyReport string_gt_zero (vs ++ ws)%list))
  = Summary.low (Report.summary (generatePolicyReport string_gt_zero vs))
    + Summary.low (Report.summary (generatePolicyReport string_gt_zero ws)) /\
  Report.passed (generatePolicyReport string_gt_zero (vs ++ ws)%list)
  = Report.passed (generatePolicyReport string_gt_zero vs)
    && Report.passed (generatePolicyReport string_gt_zero ws).
Proof.
  cbn. rewrite length_app, !count_severity_app.
  repeat split.
  destruct (count_severity "critical" vs), (count_severity "critical" ws),
    (count_severity "high" vs), (count_severity "high" ws); reflexivity.
Qed.

End Composition.


(** ** The recommendations, read off the input *)

Section Triggers.

Variable string_gt_zero : string -> bool.

Lemma recommendation_members vs :
  Report.recommendations (generatePolicyReport string_gt_zero vs) `sublist_of` all_messages /\
  (msg_critical ∈ Report.recommendations (generatePolicyReport string_gt_zero vs) <->
     Exists (fun v => severity_of v = "critical") vs) /\
  (msg_high ∈ Report.recommendations (generatePolicyReport string_gt_zero vs) <->
     Exists (fun v => severity_of v = "high") vs) /\
  (msg_medium ∈ Report.recommendations (generatePolicyReport string_gt_zero vs) <->
     Exists (fun v => severity_of v = "medium") vs) /\
  (msg_data_protection ∈ Report.recommendations (generatePolicyReport string_gt_zero vs) <->
     Exists (fun v => category_of v = "data-protection") vs) /\
  (msg_audit ∈ Report.recommendations (generatePolicyReport string_gt_zero vs) <->
     Exists (fun v => category_of v = "audit") vs) /\
  (msg_security ∈ Report.recommendations (generatePolicyReport string_gt_zero vs) <->
     Exists (fun v => category_of v = "security") vs).
Proof.
  rewrite <- !count_severity_pos, <- !occurrences_pos.
  rewrite <- !(category_count_occurrences string_gt_zero vs) by reflexivity.
  rewrite recommendations_guards.
  match goal with
  | |- context [push_if ?b6 _ (push_if ?b5 _ (push_if ?b4 _
                  (push_if ?b3 _ (push_if ?b2 _ (push_if ?b1 _ _)))))] =>
      destruct (push_chain b1 b2 b3 b4 b5 b6)
        as (Hsub & H1 & H2 & H3 & H4 & H5 & H6)
  end.
  cbv zeta in Hsub, H1, H2, H3, H4, H5, H6.
  split; [exact Hsub|].
  repeat match goal with |- _ /\ _ => split end;
    (eapply bool_decide_eq_iff; [eassumption | apply Nat.ltb_lt]).
Qed.

(** A message is recommended exactly when some violation triggers it. *)
Lemma recommendation_in vs msg :
  msg ∈ Report.recommendations (generatePolicyReport string_gt_zero vs)
  <-> Exists (triggers msg) vs.
Proof.
  destruct (recommendation_members vs) as (Hsub & H1 & H2 & H3 & H4 & H5 & H6).
  split.
  - intros Hin. pose proof (sublist_subseteq _ _ Hsub _ Hin) as Hall.
    unfold all_messages in Hall.
    repeat (apply elem_of_cons in Hall as [->|Hall]);
      [..|by apply elem_of_nil in Hall];
      revert Hin;
      [ rewrite H1 | rewrite H2 | rewrite H3 | rewrite H4 | rewrite H5 | rewrite H6 ];
      intros Hex; (eapply Exists_impl; [exact Hex|]);
      intros v Hv; unfold triggers; tauto.
  - intros Hex. apply Exists_exists in Hex as (v & Hv & Ht).
    destruct Ht as [[-> E]|[[-> E]|[[-> E]|[[-> E]|[[-> E]|[-> E]]]]]];
      [ apply H1 | apply H2 | apply H3 | apply H4 | apply H5 | apply H6 ];
      apply Exists_exists; eauto.
Qed.

(** X6. The recommendations of a concatenation are those of its parts: a
    message is recommended for [vs ++ ws] exactly when it is recommended for
    [vs] or for [ws]. *)
Theorem recommendations_app vs ws msg :
  msg ∈ Report.recommendations (generatePolicyReport string_gt_zero (vs ++ ws)%list)
  <-> msg ∈ Report.recommendations (generatePolicyReport string_gt_zero vs) \/
      msg ∈ Report.recommendations (generatePolicyReport string_gt_zero ws).
Proof. rewrite !recommendation_in. apply Exists_app. Qed.

(** X7. The recommendation list is empty exactly when no violation has
    severity critical, high or medium and none has category data-protection,
    audit or security; violations of other severities and categories yield
    no recommendation. *)
Theorem recommendations_empty_iff vs :
  Report.recommendations (generatePolicyReport string_gt_zero vs) = []
  <-> Forall (fun v => (severity_of v ∉ ["critical"; "high"; "medium"]) /\
                       (category_of v ∉ ["data-protection"; "audit"; "security"])) vs.
Proof.
  assert (Report.recommendations (generatePolicyReport string_gt_zero vs) = []
          <-> forall msg, ~ Exists (triggers msg) vs) as ->.
  { setoid_rewrite <- recommendation_in. split.
    - intros -> msg. apply not_elem_of_nil.
    - apply elem_of_nil_inv. }
  rewrite Forall_forall. setoid_rewrite Exists_exists. split.
  - intros Hnone v Hv. split; intros Hin;
      repeat (apply elem_of_cons in Hin as [E|Hin]);
      try (by apply elem_of_nil in Hin);
      [ apply (Hnone msg_critical) | apply (Hnone msg_high) | apply (Hnone msg_medium)
      | apply (Hnone msg_data_protection) | apply (Hnone msg_audit)
      | apply (Hnone msg_security) ];
      exists v; (split; [exact Hv|]); unfold triggers; tauto.
  - intros Hall msg (v & Hv & Ht). destruct (Hall v Hv) as [Hs Hc].
    destruct Ht as [[_ E]|[[_ E]|[[_ E]|[[_ E]|[[_ E]|[_ E]]]]]];
      [ apply Hs | apply Hs | apply Hs | apply Hc | apply Hc | apply Hc ];
      rewrite E; set_solver.
Qed.

(** X8. The verdict is failed exactly when the critical or the high
    recommendation is in the list. *)
Theorem failed_iff_critical_or_high_recommended vs :
  Report.passed (generatePolicyReport string_gt_zero vs) = false
  <-> msg_critical ∈ Report.recommendations (generatePolicyReport string_gt_zero vs) \/
      msg_high ∈ Report.recommendations (generatePolicyReport string_gt_zero vs).
Proof.
  destruct (recommendation_members vs) as (_ & H1 & H2 & _).
  rewrite H1, H2, <- !count_severity_pos. cbn.
  destruct (count_severity "critical" vs), (count_severity "high" vs); simpl;
    split; intros; try lia; try discriminate; try reflexivity.
Qed.

End Triggers.

(** ** Categories named like a property of [Object.prototype] *)

Lemma string_app_assoc (a b c : string) : (a ++ b) ++ c = a ++ (b ++ c).
Proof.
  induction a as [|x a IH]; [reflexivity|].
  change (String x ((a ++ b) ++ c) = String x (a ++ (b ++ c))). by rewrite IH.
Qed.

Lemma or_zero_string_app s t :
  or_zero (Prim (PString (s ++ (t ++ "1")))) = Prim (PString (s ++ (t ++ "1"))).
Proof. destruct s; [destruct t|]; reflexivity. Qed.

Lemma count_category_inherited o v k src n :
  ObjectPrototype !! k = Some (Builtin src) -> k <> "__proto__" ->
  inherited_at o k src n ->
  inherited_at (count_category o v) k src
    (n + (if String.eqb (category_of v) k then 1 else 0)).
Proof.
  intros Hk Hproto Ho. unfold inherited_at in *.
  destruct (String.eqb_spec (category_of v) k) as [E|Hne].
  - unfold count_category, Put, Get. rewrite E, Ho.
    apply String.eqb_neq in Hproto. rewrite Hproto, lookup_insert_eq.
    destruct n as [|n].
    + simpl. by rewrite Hk.
    + cbn [from_option]. rewrite Nat.add_1_r.
      change (ones (S (S n))) with ((ones n ++ "1") ++ "1").
      change (ones (S n)) with (ones n ++ "1").
      rewrite or_zero_string_app. cbn [plus_one].
      by rewrite (string_app_assoc src).
  - rewrite (count_category_other _ _ _ Hne), Nat.add_0_r. exact Ho.
Qed.

Lemma fold_count_category_inherited vs : forall o k src n,
  ObjectPrototype !! k = Some (Builtin src) -> k <> "__proto__" ->
  inherited_at o k src n ->
  inherited_at (fold_left count_category vs o) k src (n + occurrences k vs).
Proof.
  induction vs as [|v vs IH]; intros o k src n Hk Hproto Ho; simpl.
  - unfold occurrences. simpl. by rewrite Nat.add_0_r.
  - rewrite occurrences_cons, Nat.add_assoc.
    apply IH; [assumption..|]. by apply count_category_inherited.
Qed.

Section Inherited.

Variable string_gt_zero : string -> bool.

(** X9. For a category [k] that is the name of a method of
    [Object.prototype], the mapping never holds a number: it has no entry
    when no violation has category [k], and otherwise holds the source text
    of the method followed by one character 1 per violation. *)
Theorem inherited_category_entry vs k src :
  ObjectPrototype !! k = Some (Builtin src) -> k <> "__proto__" ->
  Summary.byCategory (Report.summary (generatePolicyReport string_gt_zero vs)) !! k
  = match occurrences k vs with
    | 0 => None
    | S _ => Some (PString (src ++ ones (occurrences k vs)))
    end.
Proof.
  intros Hk Hproto. cbn.
  apply (fold_count_category_inherited vs ∅ k src 0 Hk Hproto).
  apply lookup_empty.
Qed.

End Inherited.

(** X9 at two violations of category constructor. *)
Lemma inherited_category_entry_constructor :
  ObjectPrototype !! "constructor" = Some (Builtin "function Object() { [native code] }") /\
  "constructor" <> "__proto__" /\
  Summary.byCategory
    (Report.summary (generatePolicyReport never_positive
                       [constructor_violation; constructor_violation])) !! "constructor"
  = match occurrences "constructor" [constructor_violation; constructor_violation] with
    | 0 => None
    | S _ =>
        Some (PString ("function Object() { [native code] }"
                       ++ ones (occurrences "constructor"
                                  [constructor_violation; constructor_violation])))
    end.
Proof.
  split; [reflexivity|]. split; [discriminate|].
  apply (inherited_category_entry never_positive
           [constructor_violation; constructor_violation] "constructor"
           "function Object() { [native code] }"); [reflexivity | discriminate].
Defined.

(** ** The objects the program creates *)

Lemma load_report_app h k report r :
  Store.load_report h report = Some r -> Store.load_report (h ++ k)%list report = Some r.
Proof.
  unfold Store.load_report. intros H.
  destruct (h !! report) as [[]|] eqn:Hr; try discriminate.
  rewrite (lookup_app_l_Some _ _ _ _ Hr).
  destruct (Store.load_violations h violations) as [vs|] eqn:Hvs; [|discriminate].
  destruct (Store.load_summary h summary) as [s|] eqn:Hs; [|discriminate].
  rewrite (load_violations_app _ k _ _ Hvs), (load_summary_app _ k _ _ Hs).
  unfold Store.load_strings in *.
  destruct (h !! recommendations) as [[]|] eqn:Hrc; try discriminate.
  by rewrite (lookup_app_l_Some _ _ _ _ Hrc).
Qed.

Section Objects.

Variable string_gt_zero : string -> bool.

(** A run appends eight objects, the last of which is the report. *)
Lemma generatePolicyReport_loads h violations vs :
  Store.load_violations h violations = Some vs ->
  exists k,
    Store.generatePolicyReport string_gt_zero violations h
    = Some (length h + 7, (h ++ k)%list) /\
    length k = 8 /\
    Store.load_report (h ++ k)%list (length h + 7)
    = Some (generatePolicyReport string_gt_zero vs).
Proof.
  intros Hvs.
  destruct (generatePolicyReport_run string_gt_zero h violations vs Hvs)
    as (k1 & k2 & k3 & k4 & Hrun).
  eexists. split; [exact Hrun|]. split; [reflexivity|].
  unfold Store.load_report. rewrite lookup_tail. cbn [lookup list_lookup].
  rewrite (load_violations_app _ _ _ _ Hvs).
  unfold Store.load_summary, Store.load_strings.
  do 3 (rewrite lookup_tail; cbn [lookup list_lookup]). reflexivity.
Qed.

(** X10. The report, its summary, the category mapping and the
    recommendation list are four distinct objects that did not exist before
    the call; the [violations] field is the one reference of the report to
    an object of the caller. *)
Theorem report_objects_new h violations vs :
  Store.load_violations h violations = Some vs ->
  exists report h' summary passed recommendations total critical high medium low byCategory,
    Store.generatePolicyReport string_gt_zero violations h = Some (report, h') /\
    h' !! report = Some (Store.OReport violations summary passed recommendations) /\
    h' !! summary = Some (Store.OSummary total critical high medium low byCategory) /\
    violations < length h /\
    Forall (fun l => length h <= l < length h') [report; summary; recommendations; byCategory] /\
    NoDup [report; summary; recommendations; byCategory].
Proof.
  intros Hvs.
  destruct (generatePolicyReport_run string_gt_zero h violations vs Hvs)
    as (k1 & k2 & k3 & k4 & Hrun).
  eexists _, _, _, _, _, _, _, _, _, _, _. split; [exact Hrun|].
  split; [by rewrite lookup_tail|].
  split; [by rewrite lookup_tail|].
  split.
  { unfold Store.load_violations in Hvs.
    destruct (h !! violations) eqn:Hl; [|discriminate]. by eapply lookup_lt_Some. }
  split.
  - rewrite length_app. cbn [length]. repeat constructor; lia.
  - repeat constructor; rewrite ?elem_of_cons, ?elem_of_nil; lia.
Qed.

(** X11. A second call on the same array succeeds, returns another report
    object, and both report objects then hold the report computed on the
    violations: the second call leaves the first report as it was. *)
Theorem report_twice h violations vs :
  Store.load_violations h violations = Some vs ->
  exists report1 h1 report2 h2,
    Store.generatePolicyReport string_gt_zero violations h = Some (report1, h1) /\
    Store.generatePolicyReport string_gt_zero violations h1 = Some (report2, h2) /\
    report1 <> report2 /\
    Store.load_report h2 report1 = Some (generatePolicyReport string_gt_zero vs) /\
    Store.load_report h2 report2 = Some (generatePolicyReport string_gt_zero vs).
Proof.
  intros Hvs.
  destruct (generatePolicyReport_loads h violations vs Hvs) as (k1 & Hrun1 & Hlen1 & Hload1).
  pose proof (load_violations_app _ k1 _ _ Hvs) as Hvs1.
  destruct (generatePolicyReport_loads _ violations vs Hvs1) as (k2 & Hrun2 & Hlen2 & Hload2).
  eexists _, _, _, _. split; [exact Hrun1|]. split; [exact Hrun2|].
  split; [rewrite length_app; lia|].
  split; [by apply load_report_app | exact Hload2].
Qed.

End Objects.

(** X10 on [shared_store]. *)
Lemma report_objects_new_shared :
  Store.load_violations shared_store 3 = Some shared_violations /\
  exists report h' summary passed recommendations total critical high medium low byCategory,
    Store.generatePolicyReport never_positive 3 shared_store = Some (report, h') /\
    h' !! report = Some (Store.OReport 3 summary passed recommendations) /\
    h' !! summary = Some (Store.OSummary total critical high medium low byCategory) /\
    3 < length shared_store /\
    Forall (fun l => length shared_store <= l < length h')
           [report; summary; recommendations; byCategory] /\
    NoDup [report; summary; recommendations; byCategory].
Proof.
  split; [reflexivity|].
  apply (report_objects_new never_positive shared_store 3 shared_violations).
  reflexivity.
Defined.

(** X11 on [shared_store]. *)
Lemma report_twice_shared :
  Store.load_violations shared_store 3 = Some shared_violations /\
  exists report1 h1 report2 h2,
    Store.generatePolicyReport never_positive 3 shared_store = Some (report1, h1) /\
    Store.generatePolicyReport never_positive 3 h1 = Some (report2, h2) /\
    report1 <> report2 /\
    Store.load_report h2 report1 = Some (generatePolicyReport never_positive shared_violations) /\
    Store.load_report h2 report2 = Some (generatePolicyReport never_positive shared_violations).
Proof.
  split; [reflexivity|].
  apply (report_twice never_positive shared_store 3 shared_violations).
  reflexivity.
Defined.

(** ** The display helpers *)

Lemma ObjectPrototype_builtin k v :
  ObjectPrototype !! k = Some v -> exists src, v = Builtin src.
Proof.
  intros H. apply elem_of_list_to_map_2 in H.
  repeat (apply elem_of_cons in H as [H|H]; [injection H as -> ->; eauto|]).
  by apply elem_of_nil in H.
Qed.

(** The value of [emojiMap[key] || d] where the own properties of
    [emojiMap] hold non-empty strings: the own property, else the inherited
    object, else [d]. *)
Lemma or_string_Get (o : JSObject) k d :
  (forall p, o !! k = Some p -> truthy (Prim p) = true) ->
  or_string (Get o k) d
  = match o !! k with
    | Some p => Prim p
    | None => default (Prim (PString d)) (ObjectPrototype !! k)
    end.
Proof.
  intros Ho. unfold or_string, Get.
  destruct (o !! k) as [p|]; [by rewrite (Ho p)|].
  destruct (ObjectPrototype !! k) as [v|] eqn:Hk; [|reflexivity].
  by destruct (ObjectPrototype_builtin _ _ Hk) as [src ->].
Qed.

Lemma emojiMap_severity_own sev p :
  emojiMap_severity !! sev = Some p ->
  sev ∈ known_severities /\ Prim p ∈ level_marks /\ truthy (Prim p) = true /\
  ObjectPrototype !! sev = None.
Proof.
  intros H. apply elem_of_list_to_map_2 in H.
  repeat (apply elem_of_cons in H as [H|H];
          [injection H as -> ->; repeat split; apply (bool_decide_unpack _); by vm_compute|]).
  by apply elem_of_nil in H.
Qed.

Lemma emojiMap_severity_known sev :
  sev ∈ known_severities -> is_Some (emojiMap_severity !! sev).
Proof.
  unfold known_severities. intros H.
  repeat (apply elem_of_cons in H as [->|H]; [by eexists|]).
  by apply elem_of_nil in H.
Qed.

Lemma getSeverityEmoji_eq sev :
  getSeverityEmoji sev
  = match emojiMap_severity !! sev with
    | Some p => Prim p
    | None => default (Prim (PString "⚪")) (ObjectPrototype !! sev)
    end.
Proof.
  apply or_string_Get. intros p Hp.
  by apply emojiMap_severity_own in Hp as (_ & _ & Ht & _).
Qed.

(** The mark of a severity is one of the four level marks exactly for the
    four levels. *)
Lemma severity_mark_iff sev :
  getSeverityEmoji sev ∈ level_marks <-> sev ∈ known_severities.
Proof.
  rewrite getSeverityEmoji_eq.
  destruct (emojiMap_severity !! sev) as [p|] eqn:Hown.
  - apply emojiMap_severity_own in Hown. tauto.
  - split.
    + intros Hin. exfalso.
      destruct (ObjectPrototype !! sev) as [v|] eqn:Hk; simpl in Hin.
      * destruct (ObjectPrototype_builtin _ _ Hk) as [src ->].
        unfold level_marks in Hin. set_solver.
      * revert Hin. apply (bool_decide_unpack _). by vm_compute.
    + intros Hin. apply emojiMap_severity_known in Hin as [p Hp]. congruence.
Qed.

(** X12. [getSeverityEmoji] returns one of the four level marks exactly for
    the four levels, the default mark exactly for a severity that is neither
    a level nor a name of [Object.prototype], and for a name of
    [Object.prototype] the inherited object instead of a string. *)
Theorem getSeverityEmoji_cases sev :
  (getSeverityEmoji sev ∈ level_marks <-> sev ∈ known_severities) /\
  (getSeverityEmoji sev = Prim (PString "⚪") <->
     (sev ∉ known_severities) /\ ObjectPrototype !! sev = None) /\
  ((exists src, getSeverityEmoji sev = Builtin src) <-> is_Some (ObjectPrototype !! sev)).
Proof.
  split; [apply severity_mark_iff|].
  pose proof (severity_mark_iff sev) as Hmark.
  rewrite getSeverityEmoji_eq in *.
  destruct (emojiMap_severity !! sev) as [p|] eqn:Hown.
  - apply emojiMap_severity_own in Hown as (Hin & Hp & _ & Hk). rewrite Hk. split.
    + split; [|tauto]. intros E. rewrite E in Hp. revert Hp.
      apply (bool_decide_unpack _). by vm_compute.
    + split; [intros [src E]; discriminate | intros [v E]; discriminate].
  - assert (sev ∉ known_severities) as Hn.
    { intros Hin. apply emojiMap_severity_known in Hin as [p Hp]. congruence. }
    destruct (ObjectPrototype !! sev) as [v|] eqn:Hk; simpl.
    + destruct (ObjectPrototype_builtin _ _ Hk) as [src ->]. split.
      * split; [discriminate | intros [_ E]; discriminate].
      * split; eauto.
    + split; [tauto|]. split; [intros [src E]; discriminate | intros [v E]; discriminate].
Qed.

Lemma emojiMap_category_own category p :
  emojiMap_category !! category = Some p ->
  category ∈ known_categories /\ p <> PString "📝" /\ (exists e, p = PString e) /\
  truthy (Prim p) = true /\ ObjectPrototype !! category = None.
Proof.
  intros H. apply elem_of_list_to_map_2 in H.
  repeat (apply elem_of_cons in H as [H|H];
          [injection H as -> ->;
           repeat split; eauto; try discriminate; apply (bool_decide_unpack _); by vm_compute|]).
  by apply elem_of_nil in H.
Qed.

Lemma emojiMap_category_known category :
  category ∈ known_categories -> is_Some (emojiMap_category !! category).
Proof.
  unfold known_categories. intros H.
  repeat (apply elem_of_cons in H as [->|H]; [by eexists|]).
  by apply elem_of_nil in H.
Qed.

Lemma getCategoryEmoji_eq category :
  getCategoryEmoji category
  = match emojiMap_category !! category with
    | Some p => Prim p
    | None => default (Prim (PString "📝")) (ObjectPrototype !! category)
    end.
Proof.
  apply or_string_Get. intros p Hp.
  by apply emojiMap_category_own in Hp as (_ & _ & _ & Ht & _).
Qed.

(** X13. [getCategoryEmoji] returns a string other than the default mark
    exactly for the five categories of its table, the default mark exactly
    for a category that is neither in the table nor a name of
    [Object.prototype], and for a name of [Object.prototype] the inherited
    object instead of a string. *)
Theorem getCategoryEmoji_cases category :
  ((exists e, getCategoryEmoji category = Prim (PString e) /\ e <> "📝") <->
     category ∈ known_categories) /\
  (getCategoryEmoji category = Prim (PString "📝") <->
     (category ∉ known_categories) /\ ObjectPrototype !! category = None) /\
  ((exists src, getCategoryEmoji category = Builtin src) <->
     is_Some (ObjectPrototype !! category)).
Proof.
  rewrite getCategoryEmoji_eq.
  destruct (emojiMap_category !! category) as [p|] eqn:Hown.
  - apply emojiMap_category_own in Hown as (Hin & Hp & [e ->] & _ & Hk). rewrite Hk.
    split; [|split].
    + split; [tauto|]. intros _. exists e. split; [reflexivity | congruence].
    + split; [congruence | tauto].
    + split; [intros [src E]; discriminate | intros [v E]; discriminate].
  - assert (category ∉ known_categories) as Hn.
    { intros Hin. apply emojiMap_category_known in Hin as [p Hp]. congruence. }
    destruct (ObjectPrototype !! category) as [v|] eqn:Hk; simpl.
    + destruct (ObjectPrototype_builtin _ _ Hk) as [src ->]. split; [|split].
      * split; [intros (e & E & _); discriminate | tauto].
      * split; [discriminate | intros [_ E]; discriminate].
      * split; eauto.
    + split; [|split].
      * split; [intros (e & E & He); congruence | tauto].
      * tauto.
      * split; [intros [src E]; discriminate | intros [v E]; discriminate].
Qed.

Section Marks.

Variable string_gt_zero : string -> bool.

(** X14. The sum of the four severity counts of the summary is the number
    of violations for which [getSeverityEmoji] returns one of the four level
    marks. *)
Theorem severity_sum_counts_level_marks vs :
  severity_sum (Report.summary (generatePolicyReport string_gt_zero vs))
  = length (filter (fun v => getSeverityEmoji (severity_of v) ∈ level_marks) vs).
Proof.
  rewrite (list_filter_iff _ (fun v => severity_of v ∈ known_severities))
    by (intros v; apply severity_mark_iff).
  pose proof (severity_partition vs) as Hp.
  pose proof (Permutation_length
                (filter_app_complement (fun v => severity_of v ∈ known_severities) vs)) as Hc.
  rewrite length_app in Hc. unfold unrecognized in Hp.
  unfold severity_sum. cbn. lia.
Qed.

(** X15. Every recommendation of a report begins with the mark that
    [getSeverityEmoji] or [getCategoryEmoji] returns for the severity or the
    category of a violation of the input that triggers it. *)
Theorem recommendation_begins_with_mark vs msg :
  msg ∈ Report.recommendations (generatePolicyReport string_gt_zero vs) ->
  exists v e,
    v ∈ vs /\ triggers msg v /\
    (getSeverityEmoji (severity_of v) = Prim (PString e) \/
     getCategoryEmoji (category_of v) = Prim (PString e)) /\
    String.prefix e msg = true.
Proof.
  intros Hin. apply recommendation_in, Exists_exists in Hin as (v & Hv & Ht).
  exists v. pose proof Ht as Ht'.
  destruct Ht' as [[-> E]|[[-> E]|[[-> E]|[[-> E]|[[-> E]|[-> E]]]]]];
    eexists; (split; [exact Hv|]); (split; [exact Ht|]); rewrite E;
    (split; [first [left; reflexivity | right; reflexivity] | reflexivity]).
Qed.

End Marks.

(** X15 at the security recommendation of the script. *)
Lemma recommendation_begins_with_mark_security :
  msg_security ∈ Report.recommendations (generatePolicyReport never_positive policyViolations) /\
  exists v e,
    v ∈ policyViolations /\ triggers msg_security v /\
    (getSeverityEmoji (severity_of v) = Prim (PString e) \/
     getCategoryEmoji (category_of v) = Prim (PString e)) /\
    String.prefix e msg_security = true.
Proof.
  assert (msg_security
          ∈ Report.recommendations (generatePolicyReport never_positive policyViolations)) as H
    by (apply (bool_decide_unpack _); by vm_compute).
  split; [exact H|].
  apply (recommendation_begins_with_mark never_positive policyViolations msg_security H).
Defined.
